(** * The package initialiser [src/agent/__init__.py]

    The repository consists of one Python file, the initialiser of the
    package [src.agent].  This development embeds

    - the text of the file, line by line ([AgentInit.source]);
    - a scanner and a parser for the fragment of Python the file is
      written in, which turn the text into a statement list;
    - the execution of such a statement list against the interpreter
      state an import acts on (the namespace of the package and the
      module cache), following the import statement of the language
      reference;

    and proves the properties the specification states about it. *)

From Stdlib Require Import Ascii.
From stdpp Require Import gmap strings list fin_maps.

Set Warnings "-register-all".

(** ** Characters and words *)

Module Lex.

Definition LF : string := String "010"%char EmptyString.
Definition dquote : ascii := "034"%char.
Definition DQ : string := String dquote EmptyString.
Definition backslash : ascii := "092"%char.
Definition BACKSLASH : string := String backslash EmptyString.
(** The delimiter of a triple-quoted string. *)
Definition TQ : string := DQ +:+ DQ +:+ DQ.

Definition is_alpha (c : ascii) : bool :=
  let n := nat_of_ascii c in
  (65 <=? n) && (n <=? 90) || (97 <=? n) && (n <=? 122) || (n =? 95).

Definition is_digit (c : ascii) : bool :=
  let n := nat_of_ascii c in (48 <=? n) && (n <=? 57).

Fixpoint all_chars (p : ascii -> bool) (s : string) : bool :=
  match s with
  | EmptyString => true
  | String c s' => p c && all_chars p s'
  end.

(** [NAME] of the Python grammar (ASCII identifiers). *)
Definition is_identifier (s : string) : bool :=
  match s with
  | EmptyString => false
  | String c s' => is_alpha c && all_chars (fun d => is_alpha d || is_digit d) s'
  end.

(** Split at every dot. *)
Fixpoint split_dots_go (cur : string) (s : string) : list string :=
  match s with
  | EmptyString => [String.rev cur]
  | String c s' =>
      if Ascii.eqb c "."%char
      then String.rev cur :: split_dots_go EmptyString s'
      else split_dots_go (String c cur) s'
  end.
Definition split_dots : string -> list string := split_dots_go EmptyString.

(** [dotted_name] of the Python grammar. *)
Definition is_dotted_name (s : string) : bool :=
  forallb is_identifier (split_dots s).

Fixpoint join_dots (parts : list string) : string :=
  match parts with
  | [] => EmptyString
  | [p] => p
  | p :: ps => p +:+ "." +:+ join_dots ps
  end.

(** [name.rpartition('.')]: the parent package and the last component. *)
Definition rpartition_dot (name : string) : string * string :=
  match reverse (split_dots name) with
  | [] => (EmptyString, EmptyString)
  | child :: rev_parents => (join_dots (reverse rev_parents), child)
  end.

Fixpoint has_prefix (p s : string) : bool :=
  match p, s with
  | EmptyString, _ => true
  | String a p', String b s' => Ascii.eqb a b && has_prefix p' s'
  | String _ _, EmptyString => false
  end.

Fixpoint contains (p s : string) : bool :=
  has_prefix p s ||
  match s with
  | EmptyString => false
  | String _ s' => contains p s'
  end.

Definition starts_with_space (s : string) : bool :=
  match s with
  | String c _ => Ascii.is_space c
  | EmptyString => false
  end.

Definition drop_last_comma (w : string) : string :=
  match String.rev w with
  | String c r => if Ascii.eqb c ","%char then String.rev r else w
  | EmptyString => w
  end.

(** A word of the form ["text"] holding neither a quote nor a backslash
    inside: a string literal without escapes. *)
Definition string_literal (w : string) : option string :=
  match w with
  | String c body =>
      if Ascii.eqb c dquote then
        match String.rev body with
        | String d r =>
            if Ascii.eqb d dquote
               && all_chars (fun x => negb (Ascii.eqb x dquote)
                                      && negb (Ascii.eqb x backslash)) r
            then Some (String.rev r) else None
        | EmptyString => None
        end
      else None
  | EmptyString => None
  end.

End Lex.

(** ** Abstract syntax

    The statements the parser below recognises: a module docstring, a
    [from module import name] statement and the assignment of a display
    of string literals to a name.  Every other line makes the parser
    fail. *)

Inductive expr :=
| EStr (s : string)
| EList (items : list expr).

Inductive stmt :=
| Docstring (text : string)
| ImportFrom (module name : string)
| Assign (target : string) (value : expr).

(** ** Scanner: one class per physical line *)

Inductive line_class :=
| LcBlank
| LcDocDelim
| LcDocText (text : string)
| LcImport (module name : string)
| LcOpen (target : string)
| LcItem (literal : string)
| LcClose
| LcLogic.

Inductive mode := MCode | MDoc | MList.

Module Scan.
Import Lex.

(** A line at statement level. *)
Definition code_line (l : string) : line_class :=
  match String.words l with
  | [] => LcBlank
  | [w] =>
      if starts_with_space l then LcLogic
      else if bool_decide (w = TQ) then LcDocDelim
      else LcLogic
  | [kw_from; m; kw_import; n] =>
      if negb (starts_with_space l)
         && bool_decide (kw_from = "from") && bool_decide (kw_import = "import")
         && is_dotted_name m && is_identifier n
      then LcImport m n else LcLogic
  | [x; eq; bracket] =>
      if negb (starts_with_space l)
         && is_identifier x && bool_decide (eq = "=") && bool_decide (bracket = "[")
      then LcOpen x else LcLogic
  | _ => LcLogic
  end.

(** A line inside the triple-quoted string that opens the module. *)
Definition doc_line (l : string) : line_class :=
  if bool_decide (String.words l = [TQ]) then LcDocDelim
  else if contains TQ l || contains BACKSLASH l then LcLogic
  else LcDocText l.

(** A line inside the brackets of a list display. *)
Definition list_line (l : string) : line_class :=
  match String.words l with
  | [] => LcBlank
  | [w] =>
      if bool_decide (w = "]") then LcClose
      else match string_literal (drop_last_comma w) with
           | Some s => if bool_decide (drop_last_comma w = w) then LcLogic else LcItem s
           | None => LcLogic
           end
  | _ => LcLogic
  end.

Definition next_mode (m : mode) (c : line_class) : mode :=
  match m, c with
  | MCode, LcDocDelim => MDoc
  | MCode, LcOpen _ => MList
  | MDoc, LcDocDelim => MCode
  | MList, LcClose => MCode
  | _, _ => m
  end.

Definition classify (m : mode) (l : string) : line_class :=
  match m with
  | MCode => code_line l
  | MDoc => doc_line l
  | MList => list_line l
  end.

Fixpoint scan_from (m : mode) (ls : list string) : list line_class :=
  match ls with
  | [] => []
  | l :: ls' => let c := classify m l in c :: scan_from (next_mode m c) ls'
  end.

Definition scan : list string -> list line_class := scan_from MCode.

End Scan.

(** ** Parser: from line classes to statements *)

Inductive pstate :=
| PStart
| PDoc (rev_text : list string)
| PBody
| PList (target : string) (rev_items : list expr).

Module Parse.
Import Lex.

(** The value of a triple-quoted string whose delimiters stand alone on
    their lines: a line feed, then every line with its line feed. *)
Definition doc_text (lines : list string) : string :=
  LF +:+ foldr (fun l acc => l +:+ LF +:+ acc) EmptyString lines.

Fixpoint parse_from (ps : pstate) (cs : list line_class) : option (list stmt) :=
  match cs with
  | [] =>
      match ps with
      | PStart | PBody => Some []
      | PDoc _ | PList _ _ => None
      end
  | c :: cs' =>
      match ps, c with
      | (PStart | PBody), LcBlank => parse_from ps cs'
      | PStart, LcDocDelim => parse_from (PDoc []) cs'
      | (PStart | PBody), LcImport m n =>
          cons (ImportFrom m n) <$> parse_from PBody cs'
      | (PStart | PBody), LcOpen x => parse_from (PList x []) cs'
      | PDoc acc, LcDocText l => parse_from (PDoc (l :: acc)) cs'
      | PDoc acc, LcDocDelim =>
          cons (Docstring (doc_text (reverse acc))) <$> parse_from PBody cs'
      | PList x acc, LcBlank => parse_from ps cs'
      | PList x acc, LcItem s => parse_from (PList x (EStr s :: acc)) cs'
      | PList x acc, LcClose =>
          cons (Assign x (EList (reverse acc))) <$> parse_from PBody cs'
      | _, _ => None
      end
  end.

Definition parse (ls : list string) : option (list stmt) :=
  parse_from PStart (Scan.scan ls).

End Parse.

(** ** The file *)

Module AgentInit.
Import Lex.

(** Path of the file below the repository root. *)
Definition path : string := "src/agent/__init__.py".

(** The 23 physical lines of the file, in order.  The last line carries
    no line terminator. *)
Definition source : list string :=
  [ TQ
  ; "Agent Module."
  ; EmptyString
  ; "This module provides a LangGraph-based agent workflow for [DESCRIBE YOUR AGENT]."
  ; EmptyString
  ; "Main exports:"
  ; "    - build_agent_graph: Builds the compiled workflow graph"
  ; "    - AgentState: State type definition"
  ; "    - [Other models and functions]"
  ; EmptyString
  ; "Example:"
  ; "    >>> from src.agent import build_agent_graph"
  ; "    >>> graph = build_agent_graph()"
  ; "    >>> result = graph.invoke({" +:+ DQ +:+ "input" +:+ DQ +:+ ": "
      +:+ DQ +:+ "example query" +:+ DQ +:+ "})"
  ; TQ
  ; EmptyString
  ; "from src.agent.state import AgentState"
  ; "from src.agent.workflow import build_agent_graph"
  ; EmptyString
  ; "__all__ = ["
  ; "    " +:+ DQ +:+ "build_agent_graph" +:+ DQ +:+ ","
  ; "    " +:+ DQ +:+ "AgentState" +:+ DQ +:+ ","
  ; "]" ].

(** The statements of the file, as the parser reads them. *)
Definition body : list stmt := default [] (Parse.parse source).

(** The text between the two delimiters of the docstring. *)
Definition doc : string := Parse.doc_text (take 13 (drop 1 source)).

End AgentInit.

(** ** Values, exceptions and the interpreter state *)

(** Objects are opaque and carry their identity; a module object is
    referred to by its name in the module cache. *)
Inductive value :=
| VStr (s : string)
| VList (items : list value)
| VObj (id : positive)
| VModule (name : string).

Inductive exn :=
| ModuleNotFoundError (name : string)
| ImportError (module name : string)
| Raised (what : string).

(** What the import system finds for a module that is not yet in the
    module cache: no such module, a module whose body raises, or a module
    whose body runs to its end and leaves a namespace. *)
Inductive outcome :=
| NotFound
| Raises (e : exn)
| Loads (ns : gmap string value).

(** [globals] is the namespace of the package under initialisation;
    [sys_modules] holds the namespaces of the other imported modules. *)
Record state := State {
  globals : gmap string value;
  sys_modules : gmap string (gmap string value)
}.

Fixpoint eval (e : expr) : value :=
  match e with
  | EStr s => VStr s
  | EList items => VList (map eval items)
  end.

(** ** Locating modules among the files of a repository *)

Module Files.
Import Lex.

Fixpoint dots_to_slashes (s : string) : string :=
  match s with
  | EmptyString => EmptyString
  | String c s' =>
      String (if Ascii.eqb c "."%char then "/"%char else c) (dots_to_slashes s')
  end.

Fixpoint slashes_to_dots (s : string) : string :=
  match s with
  | EmptyString => EmptyString
  | String c s' =>
      String (if Ascii.eqb c "/"%char then "."%char else c) (slashes_to_dots s')
  end.

Definition drop_suffix (suffix s : string) : option string :=
  let n := String.length s - String.length suffix in
  if bool_decide (String.substring n (String.length suffix) s = suffix)
  then Some (String.substring 0 n s) else None.

(** The dotted name under which a file is imported from the root. *)
Definition module_of_path (p : string) : string :=
  match drop_suffix "/__init__.py" p with
  | Some dir => slashes_to_dots dir
  | None => slashes_to_dots (default p (drop_suffix ".py" p))
  end.

(** Where the path finder looks for a module: a package directory with
    an initialiser, a source file, or a bare directory. *)
Definition is_location (name file : string) : bool :=
  let base := dots_to_slashes name in
  bool_decide (file = base +:+ "/__init__.py")
  || bool_decide (file = base +:+ ".py")
  || has_prefix (base +:+ "/") file.

Definition locate (files : list string) (name : string) : option string :=
  List.find (is_location name) files.

(** The finder of a repository: [run] stands for the execution of a
    located module, which the import system performs. *)
Definition finder (files : list string) (run : string -> outcome)
    (name : string) : outcome :=
  match locate files name with
  | Some file => run file
  | None => NotFound
  end.

(** The files of this repository. *)
Definition snapshot : list string := [AgentInit.path].

End Files.

(** The dotted name of the package the file initialises. *)
Definition package : string := Files.module_of_path AgentInit.path.

(** ** Execution

    The body of an imported module is not run here: what it leaves is
    summed up by its [outcome], the namespace it ends with or the
    exception it raises.  Whatever else such a body does, further imports
    or input and output, is outside this model, and no statement below
    bounds it.  The parent packages of an imported module are taken to be
    imported already, as they are for the two imports of the file, whose
    parent is the package under initialisation; that package has its
    [__path__], as the loader of an [__init__.py] sets it.  A module
    object is referred to by the name it has in the module cache, which
    is also taken to be its [__name__]; its namespace is read as it
    stands when an attribute is looked up. *)

(** Computations that may raise. *)
Definition result (A : Type) : Type := exn + A.

Definition bind {A B : Type} (r : result A) (k : A -> result B) : result B :=
  match r with
  | inl e => inl e
  | inr a => k a
  end.

Notation "x <~ r ;; k" := (bind r (fun x => k))
  (at level 100, r at next level, right associativity).

Definition set_global (x : string) (v : value) (st : state) : state :=
  State (<[x:=v]> (globals st)) (sys_modules st).

(** The namespace of an imported module, by name. *)
Definition module_dict (st : state) (name : string) : option (gmap string value) :=
  if decide (name = package) then Some (globals st) else sys_modules st !! name.

(** A freshly loaded module enters the module cache and is bound, under
    its last component, in the namespace of its parent package. *)
Definition register (name : string) (ns : gmap string value) (st : state) : state :=
  let cache := <[name:=ns]> (sys_modules st) in
  let '(parent, child) := Lex.rpartition_dot name in
  if decide (parent = package)
  then State (<[child:=VModule name]> (globals st)) cache
  else State (globals st) (alter (insert child (VModule name)) parent cache).

(** The import of a module: the module cache first, the finder next. *)
Definition find_and_load (fnd : string -> outcome) (name : string) (st : state)
    : result (gmap string value * state) :=
  match module_dict st name with
  | Some ns => inr (ns, st)
  | None =>
      match fnd name with
      | NotFound => inl (ModuleNotFoundError name)
      | Raises e => inl e
      | Loads ns => inr (ns, register name ns st)
      end
  end.

(** The dotted name of the submodule [n] of the module [m]. *)
Definition submodule_name (m n : string) : string := m +:+ "." +:+ n.

(** A package is a module that has [__path__]. *)
Definition is_package (ns : gmap string value) : bool :=
  bool_decide (is_Some (ns !! "__path__")).

(** Whether an exception is the [ModuleNotFoundError] of the module
    [name]. *)
Definition is_not_found (name : string) (e : exn) : bool :=
  match e with
  | ModuleNotFoundError x => bool_decide (x = name)
  | _ => false
  end.

(** The name listed after [import], once the module [m] is imported:
    when [m] is a package that has no attribute [n], its submodule [n] is
    imported, which binds it as that attribute.  That there is no such
    submodule is no error at this point. *)
Definition handle_fromlist (fnd : string -> outcome) (m n : string) (st : state)
    : result state :=
  match module_dict st m with
  | Some ns =>
      match ns !! n with
      | Some _ => inr st
      | None =>
          if is_package ns
          then match find_and_load fnd (submodule_name m n) st with
               | inr loaded => inr loaded.2
               | inl e =>
                   if is_not_found (submodule_name m n) e then inr st else inl e
               end
          else inr st
      end
  | None => inr st
  end.

(** The value [from m import n] takes out of the module [m]: its
    attribute [n] or, when it has none, the module the cache holds under
    the name of its submodule [n]. *)
Definition import_name (m n : string) (st : state) : result value :=
  match module_dict st m ≫= (fun ns => ns !! n) with
  | Some v => inr v
  | None =>
      match module_dict st (submodule_name m n) with
      | Some _ => inr (VModule (submodule_name m n))
      | None => inl (ImportError m n)
      end
  end.

(** The value [from m import n] finds, and the state the import leaves. *)
Definition import_value (fnd : string -> outcome) (m n : string) (st : state)
    : result (value * state) :=
  loaded <~ find_and_load fnd m st ;;
  st' <~ handle_fromlist fnd m n loaded.2 ;;
  v <~ import_name m n st' ;;
  inr (v, st').

(** [from m import n]: import [m], take [n] out of it, bind it under the
    same name. *)
Definition import_from (fnd : string -> outcome) (m n : string) (st : state)
    : result state :=
  found <~ import_value fnd m n st ;;
  inr (set_global n found.1 found.2).

Definition exec_stmt (fnd : string -> outcome) (s : stmt) (st : state) : result state :=
  match s with
  | Docstring text => inr (set_global "__doc__" (VStr text) st)
  | ImportFrom m n => import_from fnd m n st
  | Assign x e => inr (set_global x (eval e) st)
  end.

Fixpoint exec_body (fnd : string -> outcome) (b : list stmt) (st : state) : result state :=
  match b with
  | [] => inr st
  | s :: b' => st' <~ exec_stmt fnd s st ;; exec_body fnd b' st'
  end.

(** Initialisation of the package: the body of the file, run from the
    state the import system hands over. *)
Definition module_init (fnd : string -> outcome) (st : state) : result state :=
  exec_body fnd AgentInit.body st.

(** What a [from m import n] would bind in a given state. *)
Definition resolve (fnd : string -> outcome) (m n : string) (st : state) : option value :=
  match import_value fnd m n st with
  | inr found => Some found.1
  | inl _ => None
  end.

(** ** Static readings of a statement list *)

Definition imports (b : list stmt) : list (string * string) :=
  omap (fun s => match s with ImportFrom m n => Some (m, n) | _ => None end) b.

Definition assigned (b : list stmt) : list string :=
  omap (fun s => match s with Assign x _ => Some x | _ => None end) b.


Definition str_items (e : expr) : option (list string) :=
  match e with
  | EList items =>
      mapM (fun i => match i with EStr s => Some s | EList _ => None end) items
  | EStr _ => None
  end.

(** The display assigned to [__all__], read as a list of names. *)
Definition all_literal (b : list stmt) : option (list string) :=
  last (omap (fun s => match s with
                       | Assign x e =>
                           if bool_decide (x = "__all__") then Some e else None
                       | _ => None
                       end) b) ≫= str_items.

Definition exports : list string := default [] (all_literal AgentInit.body).

(** The names [__all__] holds at run time, when it is a list of strings. *)
Definition exported_names (st : state) : option (list string) :=
  match globals st !! "__all__" with
  | Some (VList items) =>
      mapM (fun v => match v with VStr s => Some s | _ => None end) items
  | _ => None
  end.

(** ** Lexical census of the file *)

Module Census.
Import Lex.

Definition is_doc (c : line_class) : bool :=
  match c with LcDocDelim | LcDocText _ => true | _ => false end.
Definition is_blank (c : line_class) : bool :=
  match c with LcBlank => true | _ => false end.
Definition is_import (c : line_class) : bool :=
  match c with LcImport _ _ => true | _ => false end.
Definition is_display (c : line_class) : bool :=
  match c with LcOpen _ | LcItem _ | LcClose => true | _ => false end.
Definition is_logic (c : line_class) : bool :=
  match c with LcLogic => true | _ => false end.

Definition count (p : line_class -> bool) (ls : list string) : nat :=
  length (List.filter p (Scan.scan ls)).

(** The lines outside the docstring. *)
Definition code_lines (ls : list string) : list string :=
  (zip ls (Scan.scan ls)) ≫= (fun lc => if is_doc lc.2 then [] else [lc.1]).

Definition control_keywords : list string :=
  ["if"; "elif"; "else"; "for"; "while"; "match"; "case"; "break";
   "continue"; "return"; "yield"; "with"; "pass"].
Definition error_keywords : list string :=
  ["try"; "except"; "finally"; "raise"; "assert"].
Definition concurrency_keywords : list string := ["async"; "await"].
Definition definition_keywords : list string :=
  ["def"; "class"; "lambda"; "global"; "nonlocal"; "del"].

Definition drop_last_colon (w : string) : string :=
  match String.rev w with
  | String c r => if Ascii.eqb c ":"%char then String.rev r else w
  | EmptyString => w
  end.

Definition uses (kws : list string) (ls : list string) : bool :=
  existsb (fun l => existsb (fun w => bool_decide (drop_last_colon w ∈ kws))
                            (String.words l))
          (code_lines ls).

(** A call needs an opening parenthesis. *)
Definition has_call (ls : list string) : bool :=
  existsb (contains "(") (code_lines ls).

End Census.

(** ** Vocabulary of the statements *)


(** The namespace after the import of [m]: a fresh load binds the
    submodule name [c], a cache hit binds nothing. *)
Definition bind_child (st : state) (m c : string) (g : gmap string value)
    : gmap string value :=
  match sys_modules st !! m with
  | Some _ => g
  | None => <[c:=VModule m]> g
  end.

(** The value the file assigns to [__all__]. *)
Definition all_value : value := VList [VStr "build_agent_graph"; VStr "AgentState"].




(** ** A from-import seen from the module cache

    What [from m import n] finds and what it leaves in the module cache
    when [m] is a submodule of the package under initialisation: the
    reading of [import_value] the proofs work with. *)

(** [c] is the last component of the submodule [m] of the package, and
    [n] the last component of the submodule [n] of [m]. *)
Definition sibling (m c n : string) : Prop :=
  Lex.rpartition_dot m = (package, c)
  /\ m <> package
  /\ Lex.rpartition_dot (submodule_name m n) = (m, n)
  /\ submodule_name m n <> package.

Definition load_in (fnd : string -> outcome) (cache : gmap string (gmap string value))
    (m : string) : result (gmap string value * gmap string (gmap string value)) :=
  match cache !! m with
  | Some ns => inr (ns, cache)
  | None =>
      match fnd m with
      | NotFound => inl (ModuleNotFoundError m)
      | Raises e => inl e
      | Loads ns => inr (ns, <[m:=ns]> cache)
      end
  end.

Definition attribute_in (fnd : string -> outcome)
    (cache : gmap string (gmap string value)) (m n : string)
    (ns : gmap string value) : result (value * gmap string (gmap string value)) :=
  match ns !! n with
  | Some v => inr (v, cache)
  | None =>
      match cache !! submodule_name m n with
      | Some _ => inr (VModule (submodule_name m n), cache)
      | None =>
          if is_package ns
          then match fnd (submodule_name m n) with
               | NotFound => inl (ImportError m n)
               | Raises e =>
                   if is_not_found (submodule_name m n) e
                   then inl (ImportError m n) else inl e
               | Loads sub =>
                   inr (VModule (submodule_name m n),
                        <[m:=<[n:=VModule (submodule_name m n)]> ns]>
                          (<[submodule_name m n:=sub]> cache))
               end
          else inl (ImportError m n)
      end
  end.

Definition from_import (fnd : string -> outcome)
    (cache : gmap string (gmap string value)) (m n : string)
    : result (value * gmap string (gmap string value)) :=
  loaded <~ load_in fnd cache m ;;
  attribute_in fnd loaded.2 m n loaded.1.

(** The module cache answers [from m import n] with [v] by itself: [m]
    is in it and holds [v] as [n], or holds no [n] while its submodule
    [n] is in the cache too and is [v]. *)
Definition settled (cache : gmap string (gmap string value)) (m n : string)
    (v : value) : Prop :=
  exists ns,
    cache !! m = Some ns
    /\ (ns !! n = Some v
        \/ (ns !! n = None
            /\ is_Some (cache !! submodule_name m n)
            /\ v = VModule (submodule_name m n))).

(** ** Failure of an import, and the package seen from a client *)


(** The names of a namespace that do not begin with an underscore. *)
Definition public_names (g : gmap string value) : list string :=
  filter (fun k => Lex.has_prefix "_" k = false) (map_to_list g).*1.

(** The names [from src.agent import *] binds in a client: those
    [__all__] lists when it is bound, the public names otherwise.  An
    [__all__] that is not a list of strings makes the statement raise. *)
Definition star_names (st : state) : option (list string) :=
  match globals st !! "__all__" with
  | Some _ => exported_names st
  | None => Some (public_names (globals st))
  end.


(** ** Sample runs *)

(** Both siblings exist and define the names the package imports. *)
Definition sample_finder (name : string) : outcome :=
  if bool_decide (name = "src.agent.state")
  then Loads {[ "AgentState" := VObj 1 ]}
  else if bool_decide (name = "src.agent.workflow")
  then Loads {[ "build_agent_graph" := VObj 2; "AgentState" := VObj 1 ]}
  else NotFound.

(** The namespace as the loader hands it over, nothing imported yet. *)
Definition sample_initial : state :=
  State {[ "__name__" := VStr "src.agent" ]} ∅.

Definition sample_final : state :=
  match module_init sample_finder sample_initial with
  | inr st => st
  | inl _ => sample_initial
  end.





(** ** Tactics *)

(** Lookups in the namespace a successful initialisation leaves. *)
Ltac map_lookup :=
  repeat first [ rewrite lookup_insert_eq
               | rewrite lookup_insert_ne by discriminate ].

Ltac final_lookup Hg :=
  rewrite Hg; unfold bind_child;
  repeat match goal with
         | |- context [sys_modules ?st !! ?m] => destruct (sys_modules st !! m)
         end;
  map_lookup; try reflexivity.

(** ** Basic facts *)

Lemma package_eq : package = "src.agent".
Proof. reflexivity. Qed.

Lemma body_eq :
  AgentInit.body =
    [ Docstring AgentInit.doc
    ; ImportFrom "src.agent.state" "AgentState"
    ; ImportFrom "src.agent.workflow" "build_agent_graph"
    ; Assign "__all__" (EList [EStr "build_agent_graph"; EStr "AgentState"]) ].
Proof. vm_compute. reflexivity. Qed.

Lemma exports_eq : exports = ["build_agent_graph"; "AgentState"].
Proof. vm_compute. reflexivity. Qed.

Lemma imports_eq :
  imports AgentInit.body =
    [("src.agent.state", "AgentState"); ("src.agent.workflow", "build_agent_graph")].
Proof. vm_compute. reflexivity. Qed.

(** The name of a submodule is longer than that of its parent. *)
Lemma submodule_name_ne m n : submodule_name m n <> m.
Proof.
  unfold submodule_name. induction m as [|a m IH].
  - discriminate.
  - intros H. apply IH.
    change (String a (m +:+ "." +:+ n) = String a m) in H.
    injection H as H. exact H.
Qed.

(** ** The import of a submodule of the package *)

Section Submodule.
Variable fnd : string -> outcome.

Lemma find_and_load_child m c st :
  Lex.rpartition_dot m = (package, c) -> m <> package ->
  find_and_load fnd m st =
    match sys_modules st !! m with
    | Some ns => inr (ns, st)
    | None =>
        match fnd m with
        | NotFound => inl (ModuleNotFoundError m)
        | Raises e => inl e
        | Loads ns =>
            inr (ns, State (<[c:=VModule m]> (globals st))
                           (<[m:=ns]> (sys_modules st)))
        end
    end.
Proof.
  intros Hpart Hne. unfold find_and_load, module_dict.
  rewrite decide_False by exact Hne.
  destruct (sys_modules st !! m) as [ns|]; [reflexivity|].
  destruct (fnd m) as [|e|ns]; try reflexivity.
  unfold register. rewrite Hpart. rewrite decide_True by reflexivity.
  reflexivity.
Qed.

(** The import of a submodule of a sibling binds it in the sibling. *)
Lemma find_and_load_grandchild m n st ns :
  Lex.rpartition_dot (submodule_name m n) = (m, n) ->
  m <> package -> submodule_name m n <> package ->
  sys_modules st !! m = Some ns ->
  find_and_load fnd (submodule_name m n) st =
    match sys_modules st !! submodule_name m n with
    | Some sub => inr (sub, st)
    | None =>
        match fnd (submodule_name m n) with
        | NotFound => inl (ModuleNotFoundError (submodule_name m n))
        | Raises e => inl e
        | Loads sub =>
            inr (sub, State (globals st)
                            (<[m:=<[n:=VModule (submodule_name m n)]> ns]>
                               (<[submodule_name m n:=sub]> (sys_modules st))))
        end
    end.
Proof.
  intros Hpart Hne Hsub Hm. unfold find_and_load, module_dict.
  rewrite decide_False by exact Hsub.
  destruct (sys_modules st !! submodule_name m n) as [sub|]; [reflexivity|].
  destruct (fnd (submodule_name m n)) as [|e|sub]; try reflexivity.
  unfold register. rewrite Hpart. rewrite decide_False by exact Hne.
  rewrite alter_alt.
  rewrite lookup_insert_ne by apply submodule_name_ne.
  rewrite Hm. reflexivity.
Qed.

Lemma is_not_found_refl name : is_not_found name (ModuleNotFoundError name) = true.
Proof. simpl. apply bool_decide_eq_true. reflexivity. Qed.

(** What follows the import of the module, read from the module cache. *)
Lemma attribute_eq m c n st ns :
  sibling m c n ->
  sys_modules st !! m = Some ns ->
  (st' <~ handle_fromlist fnd m n st ;;
   v <~ import_name m n st' ;;
   inr (v, st'))
  = match attribute_in fnd (sys_modules st) m n ns with
    | inl e => inl e
    | inr found => inr (found.1, State (globals st) found.2)
    end.
Proof.
  intros (Hpart & Hne & Hpart' & Hsub) Hm.
  assert (Hst : State (globals st) (sys_modules st) = st) by (destruct st; reflexivity).
  unfold handle_fromlist, attribute_in, import_name, module_dict.
  rewrite decide_False by exact Hne. rewrite Hm.
  destruct (ns !! n) as [v|] eqn:Hv.
  - simpl. rewrite decide_False by exact Hne. rewrite Hm. simpl. rewrite Hv.
    simpl. rewrite Hst. reflexivity.
  - destruct (sys_modules st !! submodule_name m n) as [sub|] eqn:Hc.
    + destruct (is_package ns).
      * rewrite (find_and_load_grandchild m n st ns Hpart' Hne Hsub Hm), Hc.
        simpl. rewrite !decide_False by assumption. rewrite Hm, Hc. simpl.
        rewrite Hv, Hst. reflexivity.
      * simpl. rewrite !decide_False by assumption. rewrite Hm, Hc. simpl.
        rewrite Hv, Hst. reflexivity.
    + destruct (is_package ns).
      * rewrite (find_and_load_grandchild m n st ns Hpart' Hne Hsub Hm), Hc.
        destruct (fnd (submodule_name m n)) as [|e|sub].
        -- rewrite is_not_found_refl. simpl.
           rewrite !decide_False by assumption. rewrite Hm, Hc. simpl. rewrite Hv.
           reflexivity.
        -- destruct (is_not_found (submodule_name m n) e); [|reflexivity].
           simpl. rewrite !decide_False by assumption. rewrite Hm, Hc. simpl.
           rewrite Hv. reflexivity.
        -- simpl. rewrite !decide_False by assumption.
           rewrite lookup_insert_eq. simpl. rewrite lookup_insert_eq. reflexivity.
      * simpl. rewrite !decide_False by assumption. rewrite Hm, Hc. simpl.
        rewrite Hv. reflexivity.
Qed.

(** A from-import out of a sibling, read from the module cache. *)
Lemma import_value_eq m c n st :
  sibling m c n ->
  import_value fnd m n st =
    match from_import fnd (sys_modules st) m n with
    | inl e => inl e
    | inr found => inr (found.1, State (bind_child st m c (globals st)) found.2)
    end.
Proof.
  intros Hsib. pose proof Hsib as (Hpart & Hne & _).
  unfold import_value, from_import, load_in, bind_child.
  rewrite (find_and_load_child m c st Hpart Hne).
  destruct (sys_modules st !! m) as [ns|] eqn:Hm.
  - unfold bind at 1. cbn [snd].
    rewrite (attribute_eq m c n st ns Hsib Hm). reflexivity.
  - destruct (fnd m) as [|e|ns]; try reflexivity.
    unfold bind at 1. cbn [snd].
    rewrite (attribute_eq m c n _ ns Hsib); [reflexivity|].
    apply lookup_insert_eq.
Qed.

Lemma import_from_eq m c n st :
  sibling m c n ->
  import_from fnd m n st =
    match from_import fnd (sys_modules st) m n with
    | inl e => inl e
    | inr found =>
        inr (State (<[n:=found.1]> (bind_child st m c (globals st))) found.2)
    end.
Proof.
  intros Hsib. unfold import_from. rewrite (import_value_eq m c n st Hsib).
  destruct (from_import fnd (sys_modules st) m n) as [e|[v cache]]; reflexivity.
Qed.

Lemma resolve_eq m c n st :
  sibling m c n ->
  resolve fnd m n st =
    match from_import fnd (sys_modules st) m n with
    | inl _ => None
    | inr found => Some found.1
    end.
Proof.
  intros Hsib. unfold resolve. rewrite (import_value_eq m c n st Hsib).
  destruct (from_import fnd (sys_modules st) m n) as [e|[v cache]]; reflexivity.
Qed.

End Submodule.

(** The two modules the file imports from are submodules of the package. *)
Lemma state_sibling : sibling "src.agent.state" "state" "AgentState".
Proof.
  split; [reflexivity|]. split; [discriminate|]. split; [reflexivity|].
  intros H. vm_compute in H. discriminate H.
Qed.

Lemma workflow_sibling : sibling "src.agent.workflow" "workflow" "build_agent_graph".
Proof.
  split; [reflexivity|]. split; [discriminate|]. split; [reflexivity|].
  intros H. vm_compute in H. discriminate H.
Qed.

Lemma state_submodule :
  submodule_name "src.agent.state" "AgentState" = "src.agent.state.AgentState".
Proof. reflexivity. Qed.

Lemma workflow_submodule :
  submodule_name "src.agent.workflow" "build_agent_graph"
  = "src.agent.workflow.build_agent_graph".
Proof. reflexivity. Qed.

(** ** A from-import and the module cache *)

Section Cache.
Variable fnd : string -> outcome.
Variables m n : string.

(** A successful from-import leaves a cache that answers it by itself. *)
Lemma from_import_settled cache v cache' :
  from_import fnd cache m n = inr (v, cache') -> settled cache' m n v.
Proof.
  unfold from_import.
  assert (Hattr : forall c ns, c !! m = Some ns ->
            attribute_in fnd c m n ns = inr (v, cache') -> settled cache' m n v).
  { intros c ns Hm. unfold attribute_in.
    destruct (ns !! n) as [w|] eqn:Hw.
    - intros [= -> <-]. exists ns. auto.
    - destruct (c !! submodule_name m n) as [sub|] eqn:Hsub.
      + intros [= <- <-]. exists ns. split; [exact Hm|]. right.
        rewrite Hsub. eauto.
      + destruct (is_package ns); [|discriminate].
        destruct (fnd (submodule_name m n)) as [|e|sub]; [discriminate| |].
        * destruct (is_not_found (submodule_name m n) e); discriminate.
        * intros [= <- <-]. eexists. split; [apply lookup_insert_eq|].
          left. apply lookup_insert_eq. }
  unfold load_in. destruct (cache !! m) as [ns|] eqn:Hm.
  - apply Hattr. exact Hm.
  - destruct (fnd m) as [|e|ns]; try discriminate.
    apply Hattr. apply lookup_insert_eq.
Qed.

(** A cache that answers a from-import by itself is left as it is, and
    the finder is not asked. *)
Lemma settled_from_import cache v :
  settled cache m n v -> from_import fnd cache m n = inr (v, cache).
Proof.
  intros (ns & Hm & Hv). unfold from_import, load_in. rewrite Hm.
  unfold bind, attribute_in. cbn [fst snd].
  destruct Hv as [Hv|(Hv & [sub Hsub] & ->)]; rewrite Hv; [reflexivity|].
  rewrite Hsub. reflexivity.
Qed.

(** A from-import touches two entries of the module cache at most: that
    of the module and that of its submodule. *)
Lemma from_import_frame cache v cache' k :
  from_import fnd cache m n = inr (v, cache') ->
  k <> m -> k <> submodule_name m n ->
  cache' !! k = cache !! k.
Proof.
  intros Hrun Hk Hk'. revert Hrun. unfold from_import.
  assert (Hattr : forall c ns,
            attribute_in fnd c m n ns = inr (v, cache') -> cache' !! k = c !! k).
  { intros c ns. unfold attribute_in.
    destruct (ns !! n) as [w|]; [intros [= _ <-]; reflexivity|].
    destruct (c !! submodule_name m n) as [sub|]; [intros [= _ <-]; reflexivity|].
    destruct (is_package ns); [|discriminate].
    destruct (fnd (submodule_name m n)) as [|e|sub]; [discriminate| |].
    - destruct (is_not_found (submodule_name m n) e); discriminate.
    - intros [= _ <-]. rewrite !lookup_insert_ne by congruence. reflexivity. }
  unfold load_in. destruct (cache !! m) as [ns|].
  - apply Hattr.
  - destruct (fnd m) as [|e|ns]; try discriminate.
    unfold bind. cbn [fst snd]. intros Hrun. rewrite (Hattr _ _ Hrun).
    apply lookup_insert_ne. congruence.
Qed.

(** What a from-import finds depends on those two entries only. *)
Lemma from_import_local cache1 cache2 :
  cache1 !! m = cache2 !! m ->
  cache1 !! submodule_name m n = cache2 !! submodule_name m n ->
  match from_import fnd cache1 m n, from_import fnd cache2 m n with
  | inl e1, inl e2 => e1 = e2
  | inr found1, inr found2 => found1.1 = found2.1
  | _, _ => False
  end.
Proof.
  intros Hm Hsub.
  assert (Hattr : forall c1 c2 ns,
            c1 !! submodule_name m n = c2 !! submodule_name m n ->
            match attribute_in fnd c1 m n ns, attribute_in fnd c2 m n ns with
            | inl e1, inl e2 => e1 = e2
            | inr found1, inr found2 => found1.1 = found2.1
            | _, _ => False
            end).
  { intros c1 c2 ns Hc. unfold attribute_in. rewrite Hc.
    destruct (ns !! n) as [w|]; [reflexivity|].
    destruct (c2 !! submodule_name m n) as [sub|]; [reflexivity|].
    destruct (is_package ns); [|reflexivity].
    destruct (fnd (submodule_name m n)) as [|e|sub]; try reflexivity.
    destruct (is_not_found (submodule_name m n) e); reflexivity. }
  unfold from_import, load_in. rewrite Hm.
  destruct (cache2 !! m) as [ns|].
  - apply Hattr. exact Hsub.
  - destruct (fnd m) as [|e|ns]; try reflexivity.
    apply Hattr. cbn [snd].
    rewrite !lookup_insert_ne by (apply not_eq_sym, submodule_name_ne).
    exact Hsub.
Qed.


(** [settled] looks at those two entries only too. *)
Lemma settled_local cache1 cache2 v :
  cache1 !! m = cache2 !! m ->
  cache1 !! submodule_name m n = cache2 !! submodule_name m n ->
  settled cache2 m n v -> settled cache1 m n v.
Proof. unfold settled. intros -> ->. trivial. Qed.

End Cache.

(** ** Initialisation, statement by statement *)

Lemma module_init_steps fnd st :
  module_init fnd st =
    (st1 <~ import_from fnd "src.agent.state" "AgentState"
              (set_global "__doc__" (VStr AgentInit.doc) st) ;;
     st2 <~ import_from fnd "src.agent.workflow" "build_agent_graph" st1 ;;
     inr (set_global "__all__" all_value st2)).
Proof. unfold module_init. rewrite body_eq. reflexivity. Qed.

(** The first import leaves the entries the second one looks at alone,
    and the other way round. *)
Lemma state_import_frame fnd cache v cache' :
  from_import fnd cache "src.agent.state" "AgentState" = inr (v, cache') ->
  cache' !! "src.agent.workflow" = cache !! "src.agent.workflow"
  /\ cache' !! submodule_name "src.agent.workflow" "build_agent_graph"
     = cache !! submodule_name "src.agent.workflow" "build_agent_graph".
Proof.
  intros Hrun. rewrite workflow_submodule.
  split; apply (from_import_frame fnd _ _ cache v cache' _ Hrun);
    rewrite ?state_submodule; discriminate.
Qed.

Lemma workflow_import_frame fnd cache v cache' :
  from_import fnd cache "src.agent.workflow" "build_agent_graph" = inr (v, cache') ->
  cache' !! "src.agent.state" = cache !! "src.agent.state"
  /\ cache' !! submodule_name "src.agent.state" "AgentState"
     = cache !! submodule_name "src.agent.state" "AgentState".
Proof.
  intros Hrun. rewrite state_submodule.
  split; apply (from_import_frame fnd _ _ cache v cache' _ Hrun);
    rewrite ?workflow_submodule; discriminate.
Qed.

(** Initialisation, read from the module cache. *)
Lemma module_init_eq fnd st :
  module_init fnd st =
    match from_import fnd (sys_modules st) "src.agent.state" "AgentState" with
    | inl e => inl e
    | inr found1 =>
        match from_import fnd found1.2 "src.agent.workflow" "build_agent_graph" with
        | inl e => inl e
        | inr found2 =>
            inr (State
                   (<["__all__":=all_value]>
                      (<["build_agent_graph":=found2.1]>
                         (bind_child st "src.agent.workflow" "workflow"
                            (<["AgentState":=found1.1]>
                               (bind_child st "src.agent.state" "state"
                                  (<["__doc__":=VStr AgentInit.doc]> (globals st)))))))
                   found2.2)
        end
    end.
Proof.
  rewrite module_init_steps.
  rewrite (import_from_eq fnd _ "state" _ _ state_sibling).
  cbn [sys_modules set_global].
  destruct (from_import fnd (sys_modules st) "src.agent.state" "AgentState")
    as [e|[v1 c1]] eqn:H1; [reflexivity|].
  unfold bind at 1.
  rewrite (import_from_eq fnd _ "workflow" _ _ workflow_sibling).
  cbn [sys_modules fst snd].
  destruct (from_import fnd c1 "src.agent.workflow" "build_agent_graph")
    as [e|[v2 c2]]; [reflexivity|].
  unfold bind, set_global, bind_child. cbn [sys_modules globals fst snd].
  destruct (state_import_frame fnd _ _ _ H1) as [-> _]. reflexivity.
Qed.

(** The state a successful initialisation ends in. *)
Lemma module_init_inr fnd st st' :
  module_init fnd st = inr st' ->
  exists v1 v2 cache1,
    from_import fnd (sys_modules st) "src.agent.state" "AgentState"
    = inr (v1, cache1)
    /\ from_import fnd cache1 "src.agent.workflow" "build_agent_graph"
       = inr (v2, sys_modules st')
    /\ globals st' =
         <["__all__":=all_value]>
           (<["build_agent_graph":=v2]>
              (bind_child st "src.agent.workflow" "workflow"
                 (<["AgentState":=v1]>
                    (bind_child st "src.agent.state" "state"
                       (<["__doc__":=VStr AgentInit.doc]> (globals st)))))).
Proof.
  rewrite module_init_eq.
  destruct (from_import fnd (sys_modules st) "src.agent.state" "AgentState")
    as [e|[v1 c1]]; [discriminate|].
  cbn [fst snd].
  destruct (from_import fnd c1 "src.agent.workflow" "build_agent_graph")
    as [e|[v2 c2]] eqn:H2; [discriminate|].
  intros [= <-]. exists v1, v2, c1. split; [reflexivity|]. split; [exact H2|].
  reflexivity.
Qed.

(** What the second import finds does not depend on the first. *)
Lemma workflow_import_local fnd cache v1 cache1 :
  from_import fnd cache "src.agent.state" "AgentState" = inr (v1, cache1) ->
  match from_import fnd cache "src.agent.workflow" "build_agent_graph",
        from_import fnd cache1 "src.agent.workflow" "build_agent_graph" with
  | inl e1, inl e2 => e1 = e2
  | inr found1, inr found2 => found1.1 = found2.1
  | _, _ => False
  end.
Proof.
  intros H1. destruct (state_import_frame fnd _ _ _ H1) as [Hm Hsub].
  apply from_import_local; congruence.
Qed.


(** A successful initialisation binds what the two imports resolve to. *)
Lemma module_init_resolved fnd st st' :
  module_init fnd st = inr st' ->
  exists v1 v2,
    resolve fnd "src.agent.state" "AgentState" st = Some v1
    /\ resolve fnd "src.agent.workflow" "build_agent_graph" st = Some v2
    /\ globals st' !! "AgentState" = Some v1
    /\ globals st' !! "build_agent_graph" = Some v2
    /\ globals st' !! "__all__" = Some all_value
    /\ globals st' !! "__doc__" = Some (VStr AgentInit.doc).
Proof.
  intros Hrun.
  destruct (module_init_inr fnd st st' Hrun) as (v1 & v2 & c1 & H1 & H2 & Hg).
  exists v1, v2.
  split; [rewrite (resolve_eq fnd _ "state" _ _ state_sibling), H1; reflexivity|].
  split.
  { rewrite (resolve_eq fnd _ "workflow" _ _ workflow_sibling).
    pose proof (workflow_import_local fnd _ _ _ H1) as Hloc. rewrite H2 in Hloc.
    destruct (from_import fnd (sys_modules st) "src.agent.workflow"
                "build_agent_graph") as [e|found]; [contradiction|].
    simpl in Hloc. rewrite Hloc. reflexivity. }
  repeat split; final_lookup Hg.
Qed.


(** The module cache a successful initialisation leaves answers both
    imports by itself. *)
Lemma module_init_settled fnd st st' :
  module_init fnd st = inr st' ->
  exists v1 v2,
    settled (sys_modules st') "src.agent.state" "AgentState" v1
    /\ settled (sys_modules st') "src.agent.workflow" "build_agent_graph" v2
    /\ globals st' !! "AgentState" = Some v1
    /\ globals st' !! "build_agent_graph" = Some v2.
Proof.
  intros Hrun.
  destruct (module_init_inr fnd st st' Hrun) as (v1 & v2 & c1 & H1 & H2 & Hg).
  exists v1, v2.
  split.
  { destruct (workflow_import_frame fnd _ _ _ H2) as [Hm Hsub].
    apply (settled_local _ _ _ c1); [exact Hm|exact Hsub|].
    exact (from_import_settled fnd _ _ _ _ _ H1). }
  split; [exact (from_import_settled fnd _ _ _ _ _ H2)|].
  split; final_lookup Hg.
Qed.

(** ** The properties *)

(** C1. After the package has been imported, [build_agent_graph] and
    [AgentState] are both bound in its namespace, and [__all__] holds
    exactly these two names: none more, none less. *)
Theorem C1_exports_accessible fnd st st' :
  module_init fnd st = inr st' ->
  is_Some (globals st' !! "build_agent_graph")
  /\ is_Some (globals st' !! "AgentState")
  /\ exported_names st' = Some exports
  /\ (forall n, n ∈ exports <-> n = "build_agent_graph" \/ n = "AgentState").
Proof.
  intros Hrun.
  destruct (module_init_inr fnd st st' Hrun) as (v1 & v2 & c1 & _ & _ & Hg).
  split; [|split; [|split]].
  - exists v2. final_lookup Hg.
  - exists v1. final_lookup Hg.
  - unfold exported_names.
    assert (globals st' !! "__all__" = Some all_value) as ->
      by (rewrite Hg; apply lookup_insert_eq).
    rewrite exports_eq. reflexivity.
  - intros n. rewrite exports_eq, !elem_of_cons, elem_of_nil. tauto.
Qed.

Lemma C1_exports_accessible_witness :
  is_Some (globals sample_final !! "build_agent_graph")
  /\ is_Some (globals sample_final !! "AgentState")
  /\ exported_names sample_final = Some exports
  /\ (forall n, n ∈ exports <-> n = "build_agent_graph" \/ n = "AgentState").
Proof.
  apply (C1_exports_accessible sample_finder sample_initial sample_final).
  vm_compute. reflexivity.
Defined.

(** C2. The file defines neither [AgentState] nor [build_agent_graph]
    itself: it imports the first from the sibling [src.agent.state] and
    the second from the sibling [src.agent.workflow], restates both names
    in [__all__], and holds no other definition. *)
Theorem C2_reexport_only :
  imports AgentInit.body =
    [("src.agent.state", "AgentState"); ("src.agent.workflow", "build_agent_graph")]
  /\ assigned AgentInit.body = ["__all__"]
  /\ all_literal AgentInit.body = Some ["build_agent_graph"; "AgentState"]
  /\ (forall n, n ∈ exports <-> exists m, (m, n) ∈ imports AgentInit.body)
  /\ (forall m n, (m, n) ∈ imports AgentInit.body ->
        m <> package /\ (Lex.rpartition_dot m).1 = package)
  /\ length AgentInit.body = 4
  /\ Census.uses Census.definition_keywords AgentInit.source = false
  /\ Census.count Census.is_logic AgentInit.source = 0.
Proof.
  pose proof imports_eq as Hi.
  split; [exact Hi|]. split; [vm_compute; reflexivity|].
  split; [vm_compute; reflexivity|]. split; [|split].
  - intros n. rewrite Hi, exports_eq, !elem_of_cons, elem_of_nil. split.
    + intros [->|[->|[]]].
      * exists "src.agent.workflow". rewrite !elem_of_cons. auto.
      * exists "src.agent.state". rewrite !elem_of_cons. auto.
    + intros [m Hm]. rewrite !elem_of_cons, elem_of_nil in Hm.
      destruct Hm as [[= _ ->]|[[= _ ->]|[]]]; auto.
  - intros m n. rewrite Hi, !elem_of_cons, elem_of_nil.
    intros [[= -> _]|[[= -> _]|[]]]; (split; [discriminate|reflexivity]).
  - repeat split; vm_compute; reflexivity.
Qed.






(** C5. The file holds no algorithm, no control flow, no concurrency, no
    I/O and no error handling: no line outside the docstring uses a
    keyword of control flow, error handling, concurrency or definition,
    or holds a call.  Its statements are exactly the docstring, the two
    imports and the assignment of [__all__], run one after the other in
    that order. *)
Theorem C5_straight_line :
  AgentInit.body =
    [ Docstring AgentInit.doc
    ; ImportFrom "src.agent.state" "AgentState"
    ; ImportFrom "src.agent.workflow" "build_agent_graph"
    ; Assign "__all__" (EList [EStr "build_agent_graph"; EStr "AgentState"]) ]
  /\ Census.uses Census.control_keywords AgentInit.source = false
  /\ Census.uses Census.error_keywords AgentInit.source = false
  /\ Census.uses Census.concurrency_keywords AgentInit.source = false
  /\ Census.uses Census.definition_keywords AgentInit.source = false
  /\ Census.has_call AgentInit.source = false
  /\ (forall fnd st,
        module_init fnd st =
          (st1 <~ import_from fnd "src.agent.state" "AgentState"
                    (set_global "__doc__" (VStr AgentInit.doc) st) ;;
           st2 <~ import_from fnd "src.agent.workflow" "build_agent_graph" st1 ;;
           inr (set_global "__all__" all_value st2))).
Proof.
  split; [exact body_eq|].
  do 5 (split; [vm_compute; reflexivity|]).
  exact module_init_steps.
Qed.

(** C6. The siblings [src.agent.state] and [src.agent.workflow] are not
    among the files of the repository, so within it initialisation stops
    at the first import with a module-not-found error. *)
Theorem C6_snapshot_import_fails run st :
  sys_modules st !! "src.agent.state" = None ->
  Files.locate Files.snapshot "src.agent.state" = None
  /\ Files.locate Files.snapshot "src.agent.workflow" = None
  /\ module_init (Files.finder Files.snapshot run) st
     = inl (ModuleNotFoundError "src.agent.state").
Proof.
  intros Hcache.
  assert (Hloc : Files.locate Files.snapshot "src.agent.state" = None)
    by (vm_compute; reflexivity).
  split; [exact Hloc|]. split; [vm_compute; reflexivity|].
  rewrite module_init_eq. unfold from_import at 1, load_in.
  rewrite Hcache.
  unfold Files.finder. rewrite Hloc. reflexivity.
Qed.

Lemma C6_snapshot_import_fails_witness :
  Files.locate Files.snapshot "src.agent.state" = None
  /\ Files.locate Files.snapshot "src.agent.workflow" = None
  /\ module_init (Files.finder Files.snapshot (fun _ => Loads ∅)) sample_initial
     = inl (ModuleNotFoundError "src.agent.state").
Proof.
  apply (C6_snapshot_import_fails (fun _ => Loads ∅) sample_initial).
  reflexivity.
Defined.

(** C7. The file has exactly 23 lines: the docstring, blank lines, the
    two imports and the [__all__] display; no line holds logic of its
    own. *)
Theorem C7_line_census :
  length AgentInit.source = 23
  /\ Census.count Census.is_doc AgentInit.source = 15
  /\ Census.count Census.is_blank AgentInit.source = 2
  /\ Census.count Census.is_import AgentInit.source = 2
  /\ Census.count Census.is_display AgentInit.source = 4
  /\ Census.count Census.is_logic AgentInit.source = 0
  /\ Census.uses Census.definition_keywords AgentInit.source = false
  /\ Parse.parse AgentInit.source = Some AgentInit.body
  /\ length AgentInit.body = 4.
Proof. repeat split; vm_compute; reflexivity. Qed.

(** C8. [__all__] is a list of exactly two string literals without
    duplicates, in a fixed order: ["build_agent_graph"] at index 0 and
    ["AgentState"] at index 1. *)
Theorem C8_all_two_distinct_literals :
  all_literal AgentInit.body = Some exports
  /\ Assign "__all__" (EList (EStr <$> exports)) ∈ AgentInit.body
  /\ eval (EList (EStr <$> exports)) = all_value
  /\ NoDup exports
  /\ length exports = 2
  /\ exports !! 0 = Some "build_agent_graph"
  /\ exports !! 1 = Some "AgentState".
Proof.
  split; [vm_compute; reflexivity|]. rewrite exports_eq, body_eq.
  split; [rewrite !elem_of_cons; auto|].
  split; [reflexivity|]. split; [|repeat split].
  apply NoDup_cons. split; [|apply NoDup_singleton].
  rewrite elem_of_cons, elem_of_nil. intros [H|[]]. discriminate H.
Qed.






(** ** Further properties of the initialisation *)






(** X2. Running the body again in the state a successful initialisation
    left (a reload of the package) succeeds with any finder and changes
    nothing: the siblings are taken from the module cache and every name
    is bound again to the value it had. *)
Theorem X2_reinitialisation_is_identity fnd fnd' st st' :
  module_init fnd st = inr st' ->
  module_init fnd' st' = inr st'.
Proof.
  intros Hrun.
  destruct (module_init_settled fnd st st' Hrun) as (v1 & v2 & S1 & S2 & Ga & Gb).
  destruct (module_init_resolved fnd st st' Hrun)
    as (_ & _ & _ & _ & _ & _ & Gall & Gdoc).
  rewrite module_init_eq.
  rewrite (settled_from_import fnd' _ _ _ _ S1). cbn [fst snd].
  rewrite (settled_from_import fnd' _ _ _ _ S2). cbn [fst snd].
  destruct S1 as (ns1 & Hs1 & _), S2 as (ns2 & Hs2 & _).
  unfold bind_child. rewrite Hs1, Hs2.
  destruct st' as [g' c']. cbn [globals sys_modules] in *.
  f_equal. f_equal.
  rewrite (insert_id g' "__doc__") by exact Gdoc.
  rewrite (insert_id g' "AgentState") by exact Ga.
  rewrite (insert_id g' "build_agent_graph") by exact Gb.
  apply insert_id. exact Gall.
Qed.

Lemma X2_reinitialisation_is_identity_witness :
  module_init (fun _ => NotFound) sample_final = inr sample_final.
Proof.
  apply (X2_reinitialisation_is_identity sample_finder (fun _ => NotFound)
           sample_initial sample_final).
  vm_compute. reflexivity.
Defined.



(** X5. A sibling that initialisation loads itself leaves its submodule
    name, a public name, bound in the package; [__all__] keeps it out of
    [from src.agent import *]. *)
Theorem X5_all_hides_submodules fnd st st' m c :
  (m, c) ∈ [("src.agent.state", "state"); ("src.agent.workflow", "workflow")] ->
  sys_modules st !! m = None ->
  module_init fnd st = inr st' ->
  c ∈ public_names (globals st')
  /\ forall names, star_names st' = Some names -> c ∉ names.
Proof.
  intros Hm Hfresh Hrun.
  rewrite !elem_of_cons, elem_of_nil in Hm.
  destruct (module_init_inr fnd st st' Hrun) as (v1 & v2 & c1 & _ & _ & Hg).
  destruct (module_init_resolved fnd st st' Hrun)
    as (_ & _ & _ & _ & _ & _ & Gall & _).
  assert (Hc : globals st' !! c = Some (VModule m)).
  { destruct Hm as [[= -> ->]|[[= -> ->]|[]]];
      rewrite Hg; unfold bind_child; rewrite Hfresh;
      repeat match goal with
             | |- context [sys_modules ?s !! ?k] => destruct (sys_modules s !! k)
             end;
      map_lookup; reflexivity. }
  assert (Hpub : Lex.has_prefix "_" c = false)
    by (destruct Hm as [[= _ ->]|[[= _ ->]|[]]]; reflexivity).
  split.
  - unfold public_names. apply list_elem_of_filter. split; [exact Hpub|].
    apply list_elem_of_fmap. exists (c, VModule m). split; [reflexivity|].
    apply elem_of_map_to_list. exact Hc.
  - intros names. unfold star_names, exported_names. rewrite Gall.
    intros [= <-]. rewrite !elem_of_cons, elem_of_nil.
    destruct Hm as [[= _ ->]|[[= _ ->]|[]]]; intros [H|[H|[]]]; discriminate H.
Qed.

Lemma X5_all_hides_submodules_witness :
  "state" ∈ public_names (globals sample_final)
  /\ forall names, star_names sample_final = Some names -> "state" ∉ names.
Proof.
  apply (X5_all_hides_submodules sample_finder sample_initial sample_final
           "src.agent.state" "state").
  - rewrite !elem_of_cons. auto.
  - reflexivity.
  - vm_compute. reflexivity.
Defined.
